(** * Y.PaginatorModel: the pagination state engine of gallery-paginator-view

    A shallow embedding of the model half of
    [src/gallery-paginator-view/js/paginator-view.js] (lines 38-267):
    the attributes [totalItems], [itemsPerPage], [page], [lastPage], the
    derived [totalPages], [itemIndexStart], [itemIndexEnd], and the methods
    [initializer], [_changePage], [_recalcPagnParams], [_getItemIndexStart]
    and [_getItemIndexEnd].

    Numbers.  A JavaScript number is a binary64 float.  The finite ones are
    modelled by exact rationals [Q]: rounding, overflow and the sign of zero
    are not modelled.  [NaN] and the two infinities are kept as separate
    values because the code meets them ([+s] of a DOM string in the view, and
    the [isFinite] test of [Y.Lang.isNumber]).  Two rationals are the same
    number when they are [==] ([Qeq]); [===] on numbers is [Qeq_bool]. *)

From Stdlib Require Import ZArith QArith Qround Qminmax Lia Lqa Bool List.
Import ListNotations.

Open Scope Q_scope.

(** ** JavaScript values *)

Module Js.

(** What [typeof x === 'number'] covers. *)
Inductive number : Type :=
| Finite (q : Q)
| NaN
| Infinity (negative : bool).

(** The values a caller can hand to [set].  A string is represented by its
    numeric reading ([ToNumber] of it: ['7'] is [VString (Finite 7)],
    ['abc'] is [VString NaN]); the model code never looks at a string in
    any other way (it compares it with numbers and asks whether it is a
    number). *)
Inductive value : Type :=
| VUndefined
| VNull
| VBool (b : bool)
| VNumber (x : number)
| VString (reading : number).

(** ECMAScript [ToNumber]. *)
Definition ToNumber (v : value) : number :=
  match v with
  | VUndefined => NaN
  | VNull => Finite 0
  | VBool b => Finite (if b then 1 else 0)
  | VNumber x => x
  | VString r => r
  end.

Definition Qlt_bool (a b : Q) : bool := negb (Qle_bool b a).

(** [a < b] on numbers: false as soon as one side is [NaN]. *)
Definition lt (a b : number) : bool :=
  match a, b with
  | NaN, _ | _, NaN => false
  | Finite x, Finite y => Qlt_bool x y
  | Infinity true, Infinity true => false
  | Infinity true, _ => true
  | _, Infinity true => false
  | Infinity false, _ => false
  | Finite _, Infinity false => true
  end.

(** [a > b] is [b < a]. *)
Definition gt (a b : number) : bool := lt b a.

(** [Math.floor] on a finite number. *)
Definition Math_floor (x : Q) : Q := inject_Z (Qfloor x).

(** Rounding towards zero, as [%] uses it. *)
Definition truncate (x : Q) : Z :=
  if Qle_bool 0 x then Qfloor x else Qceiling x.

(** [a % b] for finite [a] and finite non-zero [b]: the result has the
    sign of the dividend.  ([b = 0] gives [NaN] in JavaScript; the one
    call site is guarded by [nipp > 0].) *)
Definition rem (a b : Q) : Q := a - b * inject_Z (truncate (a / b)).

End Js.

Import Js.

(** ** Attribute values held by the model

    Every attribute of the model carries the validator [Y.Lang.isNumber] and
    the default [null] ([page]: 1), so that a stored value is [null] or a
    finite number. *)

Definition stored := option Q.

Definition val (a : stored) : value :=
  match a with
  | None => VNull
  | Some q => VNumber (Finite q)
  end.

(** [ToNumber] of a stored value, for arithmetic: [null] counts as 0. *)
Definition num (a : stored) : Q :=
  match a with
  | None => 0
  | Some q => q
  end.

(** [ToBoolean] of a stored value, as [!x] and [x && ...] use it: [null] and
    0 are falsy. *)
Definition truthy (a : stored) : bool :=
  match a with
  | None => false
  | Some q => negb (Qeq_bool q 0)
  end.

(** Modelled from YUI3 [Y.Lang.isNumber] (the library is not part of this
    repository): [typeof o === 'number' && isFinite(o)]. *)
Definition isNumber (v : value) : bool :=
  match v with
  | VNumber (Finite _) => true
  | _ => false
  end.

(** ** The model object *)

Record PaginatorModel : Type := mkModel {
  totalItems : stored;
  itemsPerPage : stored;
  page : Q;
  lastPage : stored;
  _npages : stored;
  (** [_subscr]: whether the listeners of [initializer] are attached. *)
  _subscr : bool
}.

Definition with_totalItems (q : Q) (m : PaginatorModel) : PaginatorModel :=
  mkModel (Some q) (itemsPerPage m) (page m) (lastPage m) (_npages m) (_subscr m).

Definition with_itemsPerPage (q : Q) (m : PaginatorModel) : PaginatorModel :=
  mkModel (totalItems m) (Some q) (page m) (lastPage m) (_npages m) (_subscr m).

Definition with_page (q : Q) (m : PaginatorModel) : PaginatorModel :=
  mkModel (totalItems m) (itemsPerPage m) q (lastPage m) (_npages m) (_subscr m).

Definition with_lastPage (q : Q) (m : PaginatorModel) : PaginatorModel :=
  mkModel (totalItems m) (itemsPerPage m) (page m) (Some q) (_npages m) (_subscr m).

Definition with__npages (q : Q) (m : PaginatorModel) : PaginatorModel :=
  mkModel (totalItems m) (itemsPerPage m) (page m) (lastPage m) (Some q) (_subscr m).

Definition with__subscr (b : bool) (m : PaginatorModel) : PaginatorModel :=
  mkModel (totalItems m) (itemsPerPage m) (page m) (lastPage m) (_npages m) b.

(** ** Attribute access

    Modelled from YUI3 [Attribute] (not part of this repository).
    [get(name)] returns the stored value, passed through the attribute's
    getter when it has one.  [set(name, v)] reads the current value, fires
    [nameChange] with the facade [{prevVal, newVal}]: first the [on]
    subscribers, any of which may call [e.preventDefault()]; then, unless
    prevented, the default function, which runs the validator on [newVal]
    and stores it when it is valid and not [===] the stored value; and, when
    a value was stored, the [after] subscribers.  [set] returns the object
    itself whatever happened. *)

Record EventFacade : Type := mkFacade {
  prevVal : value;
  newVal : value
}.

(** The default function's test ([_setAttrVal]): [Some q] when [q] is to
    be stored, [None] when the validator refuses [newVal] or the value is
    the one already stored. *)
Definition _setAttrVal (raw : stored) (v : value) : option Q :=
  match v with
  | VNumber (Finite q) =>
      match raw with
      | Some r => if Qeq_bool q r then None else Some q
      | None => Some q
      end
  | _ => None
  end.

(** [get('totalPages')]: the getter returns [this._npages] (line 231). *)
Definition get_totalPages (m : PaginatorModel) : stored := _npages m.

Definition get_totalItems (m : PaginatorModel) : stored := totalItems m.
Definition get_itemsPerPage (m : PaginatorModel) : stored := itemsPerPage m.
Definition get_page (m : PaginatorModel) : Q := page m.
Definition get_lastPage (m : PaginatorModel) : stored := lastPage m.

(** [set('lastPage', v)]: nothing listens to [lastPageChange] in the model. *)
Definition set_lastPage (v : value) (m : PaginatorModel) : PaginatorModel :=
  match _setAttrVal (lastPage m) v with
  | Some q => with_lastPage q m
  | None => m
  end.

(** [_changePage] (lines 103-114), the [on('pageChange')] subscriber.  The
    boolean is true when the handler called [e.preventDefault()]. *)
Definition _changePage (e : EventFacade) (m : PaginatorModel)
  : PaginatorModel * bool :=
  let newPg := newVal e in
  let validp := true in
  let validp :=
    if lt (ToNumber newPg) (Finite 1)
       || negb (truthy (get_totalPages m))
       || negb (truthy (get_itemsPerPage m))
    then false else validp in
  let validp :=
    if truthy (get_totalPages m)
       && gt (ToNumber newPg) (ToNumber (val (get_totalPages m)))
    then false else validp in
  if validp then (set_lastPage (prevVal e) m, false) else (m, true).

(** [set('page', v)]. *)
Definition set_page (v : value) (m : PaginatorModel) : PaginatorModel :=
  let e := mkFacade (val (Some (get_page m))) v in
  let '(m1, prevented) :=
    if _subscr m then _changePage e m else (m, false) in
  if prevented then m1
  else match _setAttrVal (Some (page m1)) v with
       | Some q => with_page q m1
       | None => m1
       end.

(** Whether [set('page', v)] ends with the change prevented by
    [_changePage]. *)
Definition page_change_prevented (v : value) (m : PaginatorModel) : bool :=
  _subscr m && snd (_changePage (mkFacade (val (Some (get_page m))) v) m).

(** [_recalcPagnParams] (lines 126-139), with its boolean result. *)
Definition _recalcPagnParams (m : PaginatorModel) : PaginatorModel * bool :=
  let nipp := get_itemsPerPage m in
  let ni := get_totalItems m in
  if truthy ni && truthy nipp
     && gt (ToNumber (val ni)) (Finite 0) && gt (ToNumber (val nipp)) (Finite 0)
  then
    let np := Math_floor (num ni / num nipp) in
    let np := if Qlt_bool 0 (rem (num ni) (num nipp)) then np + 1 else np in
    let m := with__npages np m in
    let m := set_page (VNumber (Finite 1)) m in
    (m, true)
  else (m, false).

(** [set('totalItems', v)] and [set('itemsPerPage', v)]: the after
    subscribers of [initializer] recalculate. *)
Definition set_totalItems (v : value) (m : PaginatorModel) : PaginatorModel :=
  match _setAttrVal (totalItems m) v with
  | Some q =>
      let m1 := with_totalItems q m in
      if _subscr m1 then fst (_recalcPagnParams m1) else m1
  | None => m
  end.

Definition set_itemsPerPage (v : value) (m : PaginatorModel) : PaginatorModel :=
  match _setAttrVal (itemsPerPage m) v with
  | Some q =>
      let m1 := with_itemsPerPage q m in
      if _subscr m1 then fst (_recalcPagnParams m1) else m1
  | None => m
  end.

(** [initializer] (lines 66-77): one recalculation, then the listeners. *)
Definition initializer (m : PaginatorModel) : PaginatorModel :=
  let m := fst (_recalcPagnParams m) in
  with__subscr true m.

(** [new Y.PaginatorModel({totalItems: ti, itemsPerPage: ipp})], either key
    left out ([None]) or a finite number.  The other attributes start from
    their [ATTRS] defaults. *)
Definition construct (ti ipp : stored) : PaginatorModel :=
  initializer (mkModel ti ipp 1 None None false).

(** [_getItemIndexStart] (lines 147-149). *)
Definition _getItemIndexStart (m : PaginatorModel) : Q :=
  (get_page m - 1) * num (get_itemsPerPage m).

Definition get_itemIndexStart (m : PaginatorModel) : Q := _getItemIndexStart m.

(** [_getItemIndexEnd] (lines 157-161). *)
Definition _getItemIndexEnd (m : PaginatorModel) : stored :=
  let ni := get_totalItems m in
  let iend := get_itemIndexStart m + num (get_itemsPerPage m) in
  if Qlt_bool (num ni) iend then ni else Some iend.

Definition get_itemIndexEnd (m : PaginatorModel) : stored := _getItemIndexEnd m.

(** ** Operations of a caller, and the states they reach *)

Inductive op : Type :=
| SetTotalItems (v : value)
| SetItemsPerPage (v : value)
| SetPage (v : value).

Definition step (o : op) (m : PaginatorModel) : PaginatorModel :=
  match o with
  | SetTotalItems v => set_totalItems v m
  | SetItemsPerPage v => set_itemsPerPage v m
  | SetPage v => set_page v m
  end.

Definition run (os : list op) (m : PaginatorModel) : PaginatorModel :=
  fold_left (fun m o => step o m) os m.

Inductive reachable : PaginatorModel -> Prop :=
| reach_construct (ti ipp : stored) : reachable (construct ti ipp)
| reach_step (o : op) (m : PaginatorModel) :
    reachable m -> reachable (step o m).

(** ** The view: what Y.PaginatorView computes from the model

    [Y.PaginatorView] (lines 303-1331) is mostly DOM work.  What follows
    embeds the parts that compute: the page link loop of [render], the
    window of [_calcOffset], the selector toggling of [_processPageChange]
    and the three DOM handlers that turn user input into a [set] on the
    model.  The DOM is reduced to what these parts read and write: the text
    of an input or option (by its numeric reading), the [data-pglink] of the
    clicked link, and the "disabled" class of the four selectors. *)

(** [ToBoolean] of a finite number, as [!cpage] and [x || 1] use it. *)
Definition truthyQ (q : Q) : bool := negb (Qeq_bool q 0).

(** [q === a] for a number [q] and a stored value [a]. *)
Definition strict_eq (q : Q) (a : stored) : bool :=
  match a with
  | Some r => Qeq_bool q r
  | None => false
  end.

(** The object handed to [Y.Lang.sub] for one page link (lines 621-626);
    [link_active] tells whether [pageLinkClass] carries the active class. *)
Record PageLink : Type := mkLink {
  link_page : Q;
  link_active : bool;
  pageStartIndex : Q;
  pageEndIndex : Q
}.

(** The body of the loop of [render] (lines 613-626) at index [i]. *)
Definition page_link (i : Z) (nperpage nsize cpage : Q) : PageLink :=
  let active := Qeq_bool (inject_Z i + 1) cpage in
  let plIStart := inject_Z i * nperpage + 1 in
  let plIEnd := plIStart + nperpage - 1 in
  let plIEnd := if Qle_bool nsize plIEnd then nsize else plIEnd in
  mkLink (inject_Z i + 1) active plIStart plIEnd.

(** [for (var i = 0; i < npage; i++) ...] (line 612), from index [i] on;
    [None] when the fuel runs out before the test fails. *)
Fixpoint pageLinks_loop (fuel : nat) (i : Z) (npage nperpage nsize cpage : Q)
  : option (list PageLink) :=
  if Qlt_bool (inject_Z i) npage
  then match fuel with
       | O => None
       | S fuel' =>
           option_map (cons (page_link i nperpage nsize cpage))
                      (pageLinks_loop fuel' (i + 1) npage nperpage nsize cpage)
       end
  else Some [].

(** What [render] leaves in the container, as far as page links go. *)
Inductive rendering : Type :=
| NotRendered
| Rendered (pageLinks : list PageLink).

(** [render] (lines 591-663), for a view with a container: the early return
    and the page links.  [hasPageLinks] tells whether the template contains
    the token [{pageLinks}]. *)
Definition render (hasPageLinks : bool) (m : PaginatorModel)
  : option rendering :=
  let nsize := get_totalItems m in
  let nperpage := get_itemsPerPage m in
  let npage := get_totalPages m in
  let cpage := if truthyQ (get_page m) then get_page m else 1 in
  if negb (truthy nsize) || negb (truthy nperpage) then Some NotRendered
  else if hasPageLinks
       then option_map Rendered
              (pageLinks_loop (S (Z.to_nat (Qceiling (num npage)))) 0
                              (num npage) (num nperpage) (num nsize) cpage)
       else Some (Rendered []).

(** [_calcOffset] (lines 784-789): the object [{left, right}]. *)
Definition _calcOffset (m : PaginatorModel) (cpage offset : Q) : Q * stored :=
  let npage := get_totalPages m in
  let left_off := if Qlt_bool (cpage - offset) 1 then 1 else cpage - offset in
  let right_off :=
    if Qlt_bool (num npage) (cpage + offset) then npage
    else Some (cpage + offset) in
  (left_off, right_off).

(** The four selectors, found by their [data-pglink]. *)
Inductive selector : Type := first | prev | next | last.

Definition selector_eqb (a b : selector) : bool :=
  match a, b with
  | first, first | prev, prev | next, next | last, last => true
  | _, _ => false
  end.

(** The view, as far as the handlers below depend on it: the attribute
    [circular] and, for each selector of the template, whether its node
    carries the "disabled" class. *)
Record PaginatorView : Type := mkView {
  circular : bool;
  disabled : selector -> bool
}.

(** [_disablePageSelector] (lines 803-821): the class is removed when
    [visible], added otherwise, on every selector of [linkSel]. *)
Definition _disablePageSelector (linkSel : list selector) (visible : bool)
  (vw : PaginatorView) : PaginatorView :=
  fold_left
    (fun vw pgid =>
       mkView (circular vw)
              (fun s => if selector_eqb s pgid then negb visible
                        else disabled vw s))
    linkSel vw.

(** [_processPageChange] (lines 680-770), lines 717-728: the toggling of the
    selectors. *)
Definition _processPageChange (cpage : Q) (m : PaginatorModel)
  (vw : PaginatorView) : PaginatorView :=
  let npage := get_totalPages m in
  if Qeq_bool cpage 1 && negb (circular vw) then
    _disablePageSelector [last; next] true
      (_disablePageSelector [first; prev] false vw)
  else if strict_eq cpage npage && negb (circular vw) then
    _disablePageSelector [last; next] false
      (_disablePageSelector [first; prev] true vw)
  else _disablePageSelector [first; prev; last; next] true vw.

(** The [data-pglink] of a clicked link: one of the four selectors, or the
    text of a page link, given by its numeric reading ([+page]). *)
Inductive pglink : Type :=
| Selector (s : selector)
| PageNo (reading : number).

(** The [switch] of [_clickChangePage] (lines 984-997): the value handed to
    [model.set('page', ...)]. *)
Definition pglink_request (l : pglink) (m : PaginatorModel) : value :=
  let npage := get_totalPages m in
  let cpage := get_page m in
  match l with
  | Selector first => VNumber (Finite 1)
  | Selector last => val npage
  | Selector prev =>
      if negb (truthyQ cpage) then VNumber (Finite 1)
      else if Qeq_bool cpage 1 then val npage
           else VNumber (Finite (cpage - 1))
  | Selector next =>
      if negb (truthyQ cpage) then VNumber (Finite 1)
      else if strict_eq cpage npage then VNumber (Finite 1)
           else VNumber (Finite (cpage + 1))
  | PageNo r => VNumber r
  end.

(** [_clickChangePage] (lines 969-1000), its effect on the model.
    [hasClassDisabled] is the test of line 974 on the clicked node.  The
    test of line 980, [cpage === page], compares a number with the string of
    a [data-] attribute and is never true. *)
Definition _clickChangePage (hasClassDisabled : bool) (l : pglink)
  (m : PaginatorModel) : PaginatorModel :=
  if hasClassDisabled then m
  else set_page (pglink_request l m) m.

(** [_inputChangePage] (lines 943-953), its effect on the model, for an
    input whose text reads as [reading] ([+tar.get('value')]). *)
Definition _inputChangePage (reading : number) (m : PaginatorModel)
  : PaginatorModel :=
  let v :=
    match reading with
    | Finite q => if truthyQ q then reading else Finite 1
    | NaN => Finite 1
    | Infinity _ => reading
    end in
  let v :=
    if lt v (Finite 1) || gt v (ToNumber (val (get_totalPages m)))
    then Finite 1 else v in
  set_page (VNumber v) m.

(** What [_selectChangeRowOptions] reads from the changed control: a text
    that is ['all'] whatever its case, or another text, given by its numeric
    reading. *)
Inductive rows_option : Type :=
| OptionAll
| OptionText (reading : number).

(** [_selectChangeRowOptions] (lines 1012-1020), its effect on the model
    (the view is rendered again afterwards).  [+value || value] is the
    number when it is truthy and the string itself otherwise. *)
Definition _selectChangeRowOptions (o : rows_option) (m : PaginatorModel)
  : PaginatorModel :=
  let v :=
    match o with
    | OptionAll => val (get_totalItems m)
    | OptionText (Finite q) =>
        if truthyQ q then VNumber (Finite q) else VString (Finite q)
    | OptionText NaN => VString NaN
    | OptionText (Infinity s) => VNumber (Infinity s)
    end in
  set_itemsPerPage v m.

(** ** Notions used to state the properties *)

(** An integer literal as a JavaScript value. *)
Definition int (z : Z) : value := VNumber (Finite (inject_Z z)).

(** The number [_recalcPagnParams] stores in [_npages]. *)
Definition pages_of (ni nipp : Q) : Q :=
  let np := Math_floor (ni / nipp) in
  if Qlt_bool 0 (rem ni nipp) then np + 1 else np.

(** Stored values that denote the same number (or are both [null]). *)
Definition same (a b : stored) : Prop :=
  match a, b with
  | Some x, Some y => x == y
  | None, None => True
  | _, _ => False
  end.

(** The test [_changePage] makes, as a function of the requested value. *)
Definition validp (v : value) (m : PaginatorModel) : bool :=
  negb (lt (ToNumber v) (Finite 1)
        || negb (truthy (get_totalPages m))
        || negb (truthy (get_itemsPerPage m)))
  && negb (truthy (get_totalPages m)
           && gt (ToNumber v) (ToNumber (val (get_totalPages m)))).

(** The guard of [_recalcPagnParams]: both sizing inputs are positive
    numbers. *)
Definition complete (m : PaginatorModel) : bool :=
  truthy (get_totalItems m) && truthy (get_itemsPerPage m)
  && gt (ToNumber (val (get_totalItems m))) (Finite 0)
  && gt (ToNumber (val (get_itemsPerPage m))) (Finite 0).

(** What holds of every constructed model: the listeners are attached, a
    page count bounds the page, the page count is the one of the current
    sizing inputs when both are positive, and without a page count the page
    is still 1 and [lastPage] unset. *)
Record Inv (m : PaginatorModel) : Prop := mkInv {
  inv_subscr : _subscr m = true;
  inv_range : forall tp, _npages m = Some tp ->
                1 <= tp /\ 1 <= page m /\ page m <= tp;
  inv_count : forall ti ipp,
                totalItems m = Some ti -> itemsPerPage m = Some ipp ->
                0 < ti -> 0 < ipp -> _npages m = Some (pages_of ti ipp);
  inv_first : _npages m = None -> page m == 1 /\ lastPage m = None
}.

(** A page request that is to be turned down: not a number, below 1, above
    [totalPages], or made while [totalPages] or [itemsPerPage] is unset
    ([null]) or zero. *)
Inductive invalid_request (m : PaginatorModel) : value -> Prop :=
| req_not_number (v : value) :
    isNumber v = false -> invalid_request m v
| req_below (n : Q) :
    n < 1 -> invalid_request m (VNumber (Finite n))
| req_above (n tp : Q) :
    get_totalPages m = Some tp -> tp < n ->
    invalid_request m (VNumber (Finite n))
| req_no_totalPages (v : value) :
    truthy (get_totalPages m) = false -> invalid_request m v
| req_no_itemsPerPage (v : value) :
    truthy (get_itemsPerPage m) = false -> invalid_request m v.

(** The states of a model whose sizing inputs have never been both positive,
    from construction on. *)
Inductive never_complete : PaginatorModel -> Prop :=
| nc_construct (ti ipp : stored) :
    complete (construct ti ipp) = false -> never_complete (construct ti ipp)
| nc_step (o : op) (m : PaginatorModel) :
    never_complete m -> complete (step o m) = false ->
    never_complete (step o m).



(** [m'] is [m] after an accepted change of the page to [q]: the page is
    [q] and [lastPage] the page [m] had. *)
Definition moved_to (q : Q) (m m' : PaginatorModel) : Prop :=
  get_page m' == q /\ same (get_lastPage m') (Some (get_page m)).

(** ** Comparisons and truthiness *)

Lemma Qlt_bool_iff (a b : Q) : Qlt_bool a b = true <-> a < b.
Proof.
  unfold Qlt_bool. rewrite negb_true_iff. split; intro H.
  - apply Qnot_le_lt. intro L. apply Qle_bool_iff in L. congruence.
  - destruct (Qle_bool b a) eqn:E; [|reflexivity].
    apply Qle_bool_iff in E. exfalso. exact (Qlt_not_le _ _ H E).
Qed.

Lemma Qlt_bool_false_iff (a b : Q) : Qlt_bool a b = false <-> b <= a.
Proof.
  unfold Qlt_bool. rewrite negb_false_iff. apply Qle_bool_iff.
Qed.

Lemma truthy_Some (q : Q) : truthy (Some q) = true <-> ~ q == 0.
Proof.
  simpl. rewrite negb_true_iff. split; intro H.
  - apply Qeq_bool_neq. exact H.
  - destruct (Qeq_bool q 0) eqn:E; [|reflexivity].
    apply Qeq_bool_iff in E. contradiction.
Qed.

Lemma truthy_pos (q : Q) : 0 < q -> truthy (Some q) = true.
Proof. intro H. apply truthy_Some. intro E. lra. Qed.

(** ** The page count *)

Section Ceiling.

Variables ni nipp : Q.
Hypothesis ni_pos : 0 < ni.
Hypothesis nipp_pos : 0 < nipp.

Lemma quotient_pos : 0 < ni / nipp.
Proof. apply Qlt_shift_div_l; lra. Qed.

Lemma rem_floor : rem ni nipp == ni - nipp * inject_Z (Qfloor (ni / nipp)).
Proof.
  unfold rem, truncate.
  destruct (Qle_bool 0 (ni / nipp)) eqn:E; [reflexivity|].
  exfalso. pose proof quotient_pos as P.
  assert (L : 0 <= ni / nipp) by lra.
  apply Qle_bool_iff in L. congruence.
Qed.

Lemma rem_as_fraction :
  rem ni nipp == nipp * (ni / nipp - inject_Z (Qfloor (ni / nipp))).
Proof. rewrite rem_floor. field. lra. Qed.

Lemma rem_pos_iff :
  0 < rem ni nipp <-> inject_Z (Qfloor (ni / nipp)) < ni / nipp.
Proof.
  rewrite rem_as_fraction.
  set (d := ni / nipp - inject_Z (Qfloor (ni / nipp))).
  split; intro H.
  - assert (D : 0 < d); [|unfold d in D; lra].
    destruct (Qlt_le_dec 0 d) as [|L]; [assumption|exfalso]. nra.
  - assert (D : 0 < d) by (unfold d; lra). nra.
Qed.

Lemma pages_of_ceiling : pages_of ni nipp == inject_Z (Qceiling (ni / nipp)).
Proof.
  unfold pages_of, Math_floor.
  set (x := ni / nipp).
  pose proof (Qfloor_le x) as F1. pose proof (Qlt_floor x) as F2.
  pose proof (Qle_ceiling x) as C1. pose proof (Qceiling_lt x) as C2.
  destruct (Qlt_bool 0 (rem ni nipp)) eqn:E.
  - apply Qlt_bool_iff, rem_pos_iff in E. fold x in E.
    assert (Z1 : (Qfloor x < Qceiling x)%Z).
    { rewrite Zlt_Qlt. lra. }
    assert (Z2 : (Qceiling x - 1 < Qfloor x + 1)%Z).
    { rewrite Zlt_Qlt. lra. }
    assert (Z3 : Qceiling x = (Qfloor x + 1)%Z) by lia.
    rewrite Z3, inject_Z_plus. reflexivity.
  - apply Qlt_bool_false_iff in E.
    assert (X : x == inject_Z (Qfloor x)).
    { destruct (Qlt_le_dec (inject_Z (Qfloor x)) x) as [L|L]; [|lra].
      apply rem_pos_iff in L. lra. }
    assert (Z1 : (Qceiling x <= Qfloor x)%Z).
    { assert (Z2 : (Qceiling x - 1 < Qfloor x)%Z); [|lia].
      rewrite Zlt_Qlt. lra. }
    assert (Z3 : (Qfloor x <= Qceiling x)%Z).
    { rewrite Zle_Qle. apply Qle_floor_ceiling. }
    assert (Z4 : Qceiling x = Qfloor x) by lia.
    rewrite Z4. reflexivity.
Qed.

Lemma pages_of_ge_1 : 1 <= pages_of ni nipp.
Proof.
  rewrite pages_of_ceiling.
  pose proof quotient_pos as P.
  pose proof (Qle_ceiling (ni / nipp)) as C.
  assert (Z1 : (0 < Qceiling (ni / nipp))%Z).
  { rewrite Zlt_Qlt. change (inject_Z 0) with 0. lra. }
  assert (Z2 : (1 <= Qceiling (ni / nipp))%Z) by lia.
  rewrite Zle_Qle in Z2. exact Z2.
Qed.

End Ceiling.

(** ** The attribute machinery *)

Lemma same_refl (a : stored) : same a a.
Proof. destruct a; simpl; [reflexivity|exact I]. Qed.

Lemma setAttrVal_not_number (raw : stored) (v : value) :
  isNumber v = false -> _setAttrVal raw v = None.
Proof. destruct v as [| | |[q| |]|]; simpl; congruence. Qed.

Lemma setAttrVal_current (q : Q) : _setAttrVal (Some q) (val (Some q)) = None.
Proof. simpl. rewrite Qeq_bool_refl. reflexivity. Qed.

Lemma set_lastPage_fields (q : Q) (m : PaginatorModel) :
  let m' := set_lastPage (VNumber (Finite q)) m in
  totalItems m' = totalItems m /\ itemsPerPage m' = itemsPerPage m
  /\ page m' = page m /\ _npages m' = _npages m /\ _subscr m' = _subscr m
  /\ same (lastPage m') (Some q).
Proof.
  unfold set_lastPage, _setAttrVal.
  destruct (lastPage m) as [r|] eqn:L; [destruct (Qeq_bool q r) eqn:E|];
    simpl; repeat split; try reflexivity.
  rewrite L. simpl. apply Qeq_bool_iff in E. symmetry. exact E.
Qed.

Lemma changePage_validp (e : EventFacade) (m : PaginatorModel) :
  _changePage e m =
  if validp (newVal e) m then (set_lastPage (prevVal e) m, false) else (m, true).
Proof.
  unfold _changePage, validp.
  destruct (lt (ToNumber (newVal e)) (Finite 1)
            || negb (truthy (get_totalPages m))
            || negb (truthy (get_itemsPerPage m)));
    destruct (truthy (get_totalPages m)
              && gt (ToNumber (newVal e)) (ToNumber (val (get_totalPages m))));
    reflexivity.
Qed.

(** For a finite number the test is the range check of the documentation,
    together with the two "paging enabled" conditions. *)
Lemma validp_number (n : Q) (m : PaginatorModel) :
  validp (VNumber (Finite n)) m = true <->
  exists tp, get_totalPages m = Some tp /\ ~ tp == 0
             /\ truthy (get_itemsPerPage m) = true /\ 1 <= n /\ n <= tp.
Proof.
  unfold validp, gt. simpl ToNumber.
  destruct (get_totalPages m) as [tp|] eqn:T.
  - simpl val. simpl ToNumber. cbn [lt].
    destruct (truthy (Some tp)) eqn:TT; destruct (truthy (get_itemsPerPage m));
      destruct (Qlt_bool n 1) eqn:L1; destruct (Qlt_bool tp n) eqn:L2;
      simpl; split; try discriminate; intro H;
      try (destruct H as (tp' & E & Hz & Hi & H1 & H2); inversion E; subst tp');
      try discriminate;
      try (apply Qlt_bool_iff in L1; lra);
      try (apply Qlt_bool_iff in L2; lra);
      try (apply truthy_Some in Hz; congruence).
    exists tp. apply truthy_Some in TT.
    apply Qlt_bool_false_iff in L1, L2. auto.
  - simpl. rewrite orb_true_r. simpl. split; [discriminate|].
    intros (tp & E & _). discriminate.
Qed.

Lemma validp_disabled (v : value) (m : PaginatorModel) :
  truthy (get_totalPages m) = false \/ truthy (get_itemsPerPage m) = false ->
  validp v m = false.
Proof.
  unfold validp. intros [H|H]; rewrite H; simpl;
    rewrite ?orb_true_r; reflexivity.
Qed.

Lemma validp_out_of_range (n : Q) (m : PaginatorModel) :
  n < 1 \/ (exists tp, get_totalPages m = Some tp /\ tp < n) ->
  validp (VNumber (Finite n)) m = false.
Proof.
  intro H. destruct (validp (VNumber (Finite n)) m) eqn:V; [|reflexivity].
  apply validp_number in V. destruct V as (tp & T & _ & _ & L1 & L2).
  destruct H as [H|(tp' & T' & H)]; [lra|].
  rewrite T in T'. inversion T'; subst tp'. lra.
Qed.

(** [set('page', v)] never touches the sizing inputs, the page count or the
    listeners. *)
Lemma set_page_frame (v : value) (m : PaginatorModel) :
  let m' := set_page v m in
  totalItems m' = totalItems m /\ itemsPerPage m' = itemsPerPage m
  /\ _npages m' = _npages m /\ _subscr m' = _subscr m.
Proof.
  unfold set_page. rewrite changePage_validp. cbn [prevVal newVal val].
  destruct (_subscr m) eqn:S; [destruct (validp v m)|];
    cbn [fst snd];
    try (pose proof (set_lastPage_fields (get_page m) m) as (A & B & C & D & E & _));
    try destruct (_setAttrVal _ v); simpl; repeat split; congruence.
Qed.

(** A prevented change leaves the whole model as it was. *)
Lemma set_page_prevented (v : value) (m : PaginatorModel) :
  _subscr m = true -> validp v m = false -> set_page v m = m.
Proof.
  intros S V. unfold set_page. rewrite changePage_validp, S.
  cbn [newVal]. rewrite V. reflexivity.
Qed.

(** A value the validator refuses never becomes the page. *)
Lemma set_page_not_number (v : value) (m : PaginatorModel) :
  isNumber v = false -> page (set_page v m) = page m.
Proof.
  intro NV. unfold set_page. rewrite changePage_validp. cbn [prevVal newVal val].
  destruct (_subscr m); [destruct (validp v m)|]; cbn [fst snd];
    try reflexivity.
  - rewrite (setAttrVal_not_number _ v NV).
    apply (set_lastPage_fields (get_page m) m).
  - rewrite (setAttrVal_not_number _ v NV). reflexivity.
Qed.

(** An accepted change: the page is the requested number and [lastPage]
    the page before the call. *)
Lemma set_page_accepted (n : Q) (m : PaginatorModel) :
  _subscr m = true -> validp (VNumber (Finite n)) m = true ->
  let m' := set_page (VNumber (Finite n)) m in
  page m' == n /\ same (lastPage m') (Some (page m)).
Proof.
  intros S V. unfold set_page. rewrite changePage_validp, S.
  cbn [prevVal newVal val]. rewrite V.
  pose proof (set_lastPage_fields (get_page m) m) as (_ & _ & P & _ & _ & L).
  unfold get_page in *.
  set (m1 := set_lastPage (VNumber (Finite (page m))) m) in *.
  unfold _setAttrVal. destruct (Qeq_bool n (page m1)) eqn:E; simpl.
  - apply Qeq_bool_iff in E. split; [symmetry; exact E|exact L].
  - split; [reflexivity|exact L].
Qed.

(** Whatever is asked, the page afterwards is the old one or the requested
    number, and the latter only when the request passed [_changePage]. *)
Lemma set_page_cases (v : value) (m : PaginatorModel) :
  _subscr m = true ->
  page (set_page v m) = page m
  \/ exists n, v = VNumber (Finite n) /\ validp v m = true
               /\ page (set_page v m) = n.
Proof.
  intro S. destruct (validp v m) eqn:V.
  - destruct (isNumber v) eqn:NV.
    + destruct v as [| | |[n| |]|]; try discriminate.
      unfold set_page. rewrite changePage_validp, S.
      cbn [prevVal newVal val]. rewrite V.
      pose proof (set_lastPage_fields (get_page m) m) as (_ & _ & P & _).
      unfold _setAttrVal. destruct (Qeq_bool n _); simpl.
      * left. exact P.
      * right. exists n. auto.
    + left. apply set_page_not_number. exact NV.
  - left. rewrite set_page_prevented; auto.
Qed.

(** ** Recalculation *)

Lemma complete_iff (m : PaginatorModel) :
  complete m = true <->
  exists ti ipp, totalItems m = Some ti /\ itemsPerPage m = Some ipp
                 /\ 0 < ti /\ 0 < ipp.
Proof.
  unfold complete, get_totalItems, get_itemsPerPage.
  destruct (totalItems m) as [ti|]; destruct (itemsPerPage m) as [ipp|];
    simpl; try rewrite andb_false_r;
    try (split; [discriminate|intros (a & b & A & B & _); discriminate]).
  split.
  - intro H. apply andb_true_iff in H. destruct H as [H Hb].
    apply andb_true_iff in H. destruct H as [_ Ha].
    apply Qlt_bool_iff in Ha, Hb. exists ti, ipp. auto.
  - intros (a & b & A & B & Ha & Hb). inversion A; inversion B; subst a b.
    apply Qlt_bool_iff in Ha as Ha', Hb as Hb'. rewrite Ha', Hb'.
    pose proof (truthy_pos ti Ha) as Ta. pose proof (truthy_pos ipp Hb) as Tb.
    simpl in Ta, Tb. rewrite Ta, Tb. reflexivity.
Qed.

Lemma recalc_eq (m : PaginatorModel) :
  _recalcPagnParams m =
  if complete m
  then (set_page (VNumber (Finite 1))
          (with__npages (pages_of (num (totalItems m)) (num (itemsPerPage m))) m),
        true)
  else (m, false).
Proof. reflexivity. Qed.

Lemma recalc_incomplete (m : PaginatorModel) :
  complete m = false -> _recalcPagnParams m = (m, false).
Proof. intro C. rewrite recalc_eq, C. reflexivity. Qed.

(** A successful recalculation, with the listeners attached: the page count
    is the one of the formula, the page is back to 1 and [lastPage] holds
    the page before. *)
Lemma recalc_complete (m : PaginatorModel) (ti ipp : Q) :
  _subscr m = true ->
  totalItems m = Some ti -> itemsPerPage m = Some ipp -> 0 < ti -> 0 < ipp ->
  let m' := fst (_recalcPagnParams m) in
  snd (_recalcPagnParams m) = true
  /\ _npages m' = Some (pages_of ti ipp) /\ page m' == 1
  /\ same (lastPage m') (Some (page m))
  /\ totalItems m' = Some ti /\ itemsPerPage m' = Some ipp
  /\ _subscr m' = true.
Proof.
  intros S Ti Ip Hti Hip.
  assert (C : complete m = true) by (apply complete_iff; eauto 8).
  rewrite recalc_eq, C, Ti, Ip. cbn [fst snd num].
  set (m2 := with__npages (pages_of ti ipp) m).
  pose proof (pages_of_ge_1 ti ipp Hti Hip) as G.
  assert (V : validp (VNumber (Finite 1)) m2 = true).
  { apply validp_number. exists (pages_of ti ipp). repeat split.
    - intro Z. lra.
    - unfold m2, get_itemsPerPage. simpl. rewrite Ip.
      exact (truthy_pos ipp Hip).
    - lra.
    - exact G. }
  destruct (set_page_frame (VNumber (Finite 1)) m2) as (A & B & N & S').
  destruct (set_page_accepted 1 m2 S V) as (P & L).
  cbv zeta in A, B, N, S', P, L.
  rewrite A, B, N, S'. unfold m2 at 1 2 3 4. simpl.
  repeat split; auto.
Qed.

(** ** An invariant of every constructed model *)

Lemma Inv_construct (ti ipp : stored) : Inv (construct ti ipp).
Proof.
  unfold construct, initializer.
  set (m0 := mkModel ti ipp 1 None None false).
  rewrite recalc_eq. destruct (complete m0) eqn:C.
  - apply complete_iff in C. destruct C as (a & b & A & B & Ha & Hb).
    simpl in A, B. subst ti ipp. cbn [fst num totalItems itemsPerPage m0].
    pose proof (pages_of_ge_1 a b Ha Hb) as G.
    unfold set_page. cbn [_subscr with__npages m0 fst snd page _setAttrVal].
    change (Qeq_bool 1 1) with true. cbv iota.
    constructor; simpl.
    + reflexivity.
    + intros tp E. inversion E; subst tp. lra.
    + intros x y X Y _ _. inversion X; inversion Y; subst. reflexivity.
    + discriminate.
  - cbn [fst]. constructor; simpl.
    + reflexivity.
    + discriminate.
    + intros x y X Y Hx Hy. exfalso.
      assert (C' : complete m0 = true) by (apply complete_iff; eauto 8).
      congruence.
    + intros _. split; reflexivity.
Qed.

Lemma Inv_set_page (v : value) (m : PaginatorModel) :
  Inv m -> Inv (set_page v m).
Proof.
  intros [S R C F].
  destruct (set_page_frame v m) as (A & B & N & S').
  cbv zeta in A, B, N, S'.
  constructor.
  - congruence.
  - rewrite N. intros tp T. destruct (R tp T) as (R1 & R2 & R3).
    destruct (set_page_cases v m S) as [P|(n & E & V & P)].
    + rewrite P. auto.
    + rewrite P. subst v. apply validp_number in V.
      destruct V as (tp' & T' & _ & _ & L1 & L2).
      unfold get_totalPages in T'. rewrite T in T'. inversion T'; subst tp'.
      auto.
  - rewrite A, B, N. exact C.
  - rewrite N. intro T.
    rewrite set_page_prevented; auto.
    apply validp_disabled. left. unfold get_totalPages. rewrite T. reflexivity.
Qed.

(** Storing a sizing input and recalculating. *)
Lemma Inv_recalc (m m1 : PaginatorModel) :
  Inv m ->
  page m1 = page m -> lastPage m1 = lastPage m -> _npages m1 = _npages m ->
  _subscr m1 = true ->
  Inv (fst (_recalcPagnParams m1)).
Proof.
  intros [S R C F] P L N S1.
  destruct (complete m1) eqn:C1.
  - apply complete_iff in C1. destruct C1 as (ti & ipp & Ti & Ip & Hti & Hip).
    destruct (recalc_complete m1 ti ipp S1 Ti Ip Hti Hip)
      as (_ & N' & P' & _ & Ti' & Ip' & S').
    cbv zeta in N', P', Ti', Ip', S'.
    pose proof (pages_of_ge_1 ti ipp Hti Hip) as G.
    constructor.
    + exact S'.
    + rewrite N'. intros tp E. inversion E; subst tp. lra.
    + rewrite Ti', Ip', N'. intros x y X Y _ _.
      inversion X; inversion Y; subst. reflexivity.
    + rewrite N'. discriminate.
  - rewrite recalc_incomplete by exact C1. cbn [fst].
    constructor.
    + exact S1.
    + rewrite N, P. exact R.
    + intros x y X Y Hx Hy. exfalso.
      assert (C' : complete m1 = true) by (apply complete_iff; eauto 8).
      congruence.
    + rewrite N, P, L. exact F.
Qed.

Lemma Inv_set_totalItems (v : value) (m : PaginatorModel) :
  Inv m -> Inv (set_totalItems v m).
Proof.
  intro I. unfold set_totalItems.
  destruct (_setAttrVal (totalItems m) v) as [q|]; [|exact I].
  cbn [_subscr with_totalItems]. rewrite (inv_subscr m I).
  apply (Inv_recalc m); try reflexivity; [exact I|apply I].
Qed.

Lemma Inv_set_itemsPerPage (v : value) (m : PaginatorModel) :
  Inv m -> Inv (set_itemsPerPage v m).
Proof.
  intro I. unfold set_itemsPerPage.
  destruct (_setAttrVal (itemsPerPage m) v) as [q|]; [|exact I].
  cbn [_subscr with_itemsPerPage]. rewrite (inv_subscr m I).
  apply (Inv_recalc m); try reflexivity; [exact I|apply I].
Qed.

Lemma Inv_step (o : op) (m : PaginatorModel) : Inv m -> Inv (step o m).
Proof.
  destruct o; simpl;
    auto using Inv_set_page, Inv_set_totalItems, Inv_set_itemsPerPage.
Qed.

Lemma reachable_Inv (m : PaginatorModel) : reachable m -> Inv m.
Proof.
  induction 1 as [ti ipp|o m _ IH]; [apply Inv_construct|apply Inv_step, IH].
Qed.

Lemma reachable_run (os : list op) (m : PaginatorModel) :
  reachable m -> reachable (run os m).
Proof.
  revert m. induction os as [|o os IH]; intros m R; simpl; [exact R|].
  apply IH. constructor. exact R.
Qed.

(** ** Requests that the documentation calls invalid *)

(** A number out of range, or any request while paging is disabled, is
    prevented by [_changePage]: nothing at all changes. *)
Lemma set_page_rejected (v : value) (m : PaginatorModel) :
  _subscr m = true -> invalid_request m v ->
  isNumber v = true
  \/ truthy (get_totalPages m) = false \/ truthy (get_itemsPerPage m) = false ->
  set_page v m = m /\ page_change_prevented v m = true.
Proof.
  intros S I H.
  assert (V : validp v m = false).
  { destruct I as [v NV|n L|n tp T L|v D|v D].
    - destruct H as [H|H]; [congruence|]. apply validp_disabled. exact H.
    - apply validp_out_of_range. left. exact L.
    - apply validp_out_of_range. right. exists tp. auto.
    - apply validp_disabled. left. exact D.
    - apply validp_disabled. right. exact D. }
  split; [apply set_page_prevented; assumption|].
  unfold page_change_prevented. rewrite S, changePage_validp.
  cbn [newVal]. rewrite V. reflexivity.
Qed.

(** ** The claims *)



Example totalPages_500_33 :
  get_totalPages (construct (Some 500) (Some 33)) = Some 16
  /\ rem 500 33 = 5.
Proof. split; reflexivity. Qed.

Example totalPages_set_later :
  get_totalPages
    (run [SetTotalItems (int 500); SetItemsPerPage (int 33)]
         (construct None None)) = Some 16.
Proof. reflexivity. Qed.

(** C2.  In every state reached from construction by [set('totalItems')],
    [set('itemsPerPage')] and [set('page')] calls, a positive [totalPages]
    bounds the page: [1 <= page <= totalPages]; and a page request that is
    not a number, is out of this range, or is made while [totalPages] or
    [itemsPerPage] is unset, leaves the page as it was. *)
Theorem C2_page_within_bounds (m : PaginatorModel) :
  reachable m ->
  (forall tp, get_totalPages m = Some tp -> 0 < tp ->
              1 <= get_page m /\ get_page m <= tp)
  /\ (forall v, invalid_request m v -> get_page (set_page v m) = get_page m).
Proof.
  intro R. pose proof (reachable_Inv m R) as I. split.
  - intros tp T _. destruct (inv_range m I tp T) as (_ & A & B). auto.
  - intros v Rq. unfold get_page.
    destruct (isNumber v) eqn:NV.
    + destruct (set_page_rejected v m (inv_subscr m I) Rq) as [E _];
        [auto|]. rewrite E. reflexivity.
    + apply set_page_not_number. exact NV.
Qed.

Lemma C2_witness :
  let m := run [SetPage (int 7); SetItemsPerPage (int 20); SetPage (int 3)]
               (construct (Some 95) (Some 10)) in
  (1 <= get_page m /\ get_page m <= 5)
  /\ get_page (set_page (int 6) m) = get_page m
  /\ get_page (set_page (VString NaN) m) = get_page m.
Proof.
  intro m.
  assert (R : reachable m) by (apply reachable_run; constructor).
  destruct (C2_page_within_bounds m R) as [B K].
  split; [|split].
  - apply (B 5); reflexivity.
  - apply K. apply (req_above m 6 5); reflexivity.
  - apply K. apply req_not_number. reflexivity.
Defined.

(** Without sizing inputs paging is disabled: a request for page 2 changes
    nothing. *)
Example page_request_without_sizing :
  let m := construct None None in
  get_totalPages m = None /\ get_page m = 1 /\ set_page (int 2) m = m.
Proof. repeat split. Qed.

(** C3 (the code departs from it).  With 500 items at 50 per page and the
    page moved to 3, [set('page', NaN)] is not prevented by [_changePage]:
    the page stays 3, as it must for a value that is not a number, but
    [lastPage] is overwritten, 1 becoming 3. *)
Theorem C3_lastPage_overwritten_by_NaN :
  let m := run [SetPage (int 3)] (construct (Some 500) (Some 50)) in
  let m' := set_page (VNumber NaN) m in
  isNumber (VNumber NaN) = false
  /\ get_page m = 3 /\ get_lastPage m = Some 1
  /\ page_change_prevented (VNumber NaN) m = false
  /\ get_page m' = 3 /\ get_lastPage m' = Some 3.
Proof. repeat split. Qed.

(** C4 (the code departs from it).  With 95 items at 10 per page and the
    page moved to 5, [set('page', undefined)] changes [lastPage] from 1 to 5
    although no page change is accepted: the page is 5 before and after. *)
Theorem C4_lastPage_changes_without_accepted_change :
  let m := run [SetPage (int 5)] (construct (Some 95) (Some 10)) in
  let m' := set_page VUndefined m in
  get_page m = 5 /\ get_lastPage m = Some 1
  /\ get_page m' = 5 /\ get_lastPage m' = Some 5.
Proof. repeat split. Qed.

(** The part of C4 the code does honour: a number within
    [1 .. totalPages], asked while paging is enabled, becomes the page, and
    [lastPage] the page held before. *)
Lemma set_page_in_range (m : PaginatorModel) (tp n : Q) :
  _subscr m = true ->
  get_totalPages m = Some tp -> 0 < tp ->
  truthy (get_itemsPerPage m) = true ->
  1 <= n -> n <= tp ->
  let m' := set_page (VNumber (Finite n)) m in
  get_page m' == n /\ same (get_lastPage m') (Some (get_page m)).
Proof.
  intros S T Htp Ip L1 L2.
  apply set_page_accepted; [exact S|].
  apply validp_number. exists tp. repeat split; auto. intro Z. lra.
Qed.

(** The defect behind C3 and C4, in general: a value that is not a number
    but passes the comparisons of [_changePage] ([NaN], [undefined], a
    string that does not read as a number out of range) keeps the page, by
    the validator, after [lastPage] has been written. *)
Lemma set_page_not_number_lastPage (v : value) (m : PaginatorModel) :
  _subscr m = true -> isNumber v = false -> validp v m = true ->
  let m' := set_page v m in
  get_page m' = get_page m /\ same (get_lastPage m') (Some (get_page m))
  /\ page_change_prevented v m = false.
Proof.
  intros S NV V. cbv zeta. unfold page_change_prevented, set_page.
  rewrite changePage_validp, S. cbn [prevVal newVal val]. rewrite V.
  cbn [fst snd andb]. rewrite (setAttrVal_not_number _ v NV).
  pose proof (set_lastPage_fields (get_page m) m) as (_ & _ & P & _ & _ & L).
  unfold get_page, get_lastPage in *. auto.
Qed.

(** C5, as the code has it.  Asking for the current page leaves the page
    as it is.  [lastPage] is left alone when paging is disabled (the request
    is then prevented and nothing changes); when paging is enabled the
    request passes [_changePage], which records the page before the call:
    [lastPage] becomes the current page. *)
Theorem C5_set_current_page (m : PaginatorModel) :
  reachable m ->
  let p := get_page m in
  let m' := set_page (VNumber (Finite p)) m in
  get_page m' = p
  /\ (truthy (get_totalPages m) = true -> truthy (get_itemsPerPage m) = true ->
      same (get_lastPage m') (Some p))
  /\ (truthy (get_totalPages m) = false \/ truthy (get_itemsPerPage m) = false ->
      m' = m).
Proof.
  intro R. pose proof (reachable_Inv m R) as I.
  pose proof (inv_subscr m I) as S.
  cbv zeta. unfold get_page, get_lastPage. split; [|split].
  - destruct (set_page_cases (VNumber (Finite (page m))) m S)
      as [P|(n & E & _ & P)]; [exact P|].
    inversion E. congruence.
  - intros T Ip. destruct (get_totalPages m) as [tp|] eqn:Tp; [|discriminate].
    destruct (inv_range m I tp Tp) as (B0 & B1 & B2).
    apply set_page_accepted; [exact S|].
    apply validp_number. exists tp. repeat split; auto.
    apply truthy_Some. exact T.
  - intro D. apply set_page_prevented; [exact S|].
    apply validp_disabled. exact D.
Qed.

Lemma C5_witness :
  let m := run [SetPage (int 4); SetPage (int 2)]
               (construct (Some 95) (Some 10)) in
  let m' := set_page (VNumber (Finite (get_page m))) m in
  get_page m' = get_page m /\ same (get_lastPage m') (Some (get_page m)).
Proof.
  intros m m'.
  assert (R : reachable m) by (apply reachable_run; constructor).
  destruct (C5_set_current_page m R) as (P & L & _).
  split; [exact P|apply L; reflexivity].
Defined.

(** With 500 items at 50 per page: after [set('page', 3)], [lastPage] is 1;
    a second [set('page', 3)] makes it 3. *)
Lemma C5_counterexample :
  let m := run [SetPage (int 3)] (construct (Some 500) (Some 50)) in
  let m' := set_page (int 3) m in
  get_page m = 3 /\ get_lastPage m = Some 1
  /\ get_page m' = 3 /\ get_lastPage m' = Some 3
  /\ get_lastPage m' <> get_lastPage m.
Proof. repeat split. discriminate. Qed.



(** Ten pages, the page at 5, then 20 items per page: five pages, the page
    back at 1, and [lastPage] 5. *)
Example reset_after_itemsPerPage :
  let m := run [SetPage (int 5); SetItemsPerPage (int 20)]
               (construct (Some 100) (Some 10)) in
  get_totalPages m = Some 5 /\ get_page m = 1 /\ get_lastPage m = Some 5.
Proof. repeat split. Qed.


(** C7.  With [totalItems] and [itemsPerPage] set, [get('itemIndexStart')]
    is [(page - 1) * itemsPerPage] and [get('itemIndexEnd')] is the smaller
    of [itemIndexStart + itemsPerPage] and [totalItems]. *)
Theorem C7_item_index_range (m : PaginatorModel) (ti ipp : Q) :
  get_totalItems m = Some ti -> get_itemsPerPage m = Some ipp ->
  get_itemIndexStart m = (get_page m - 1) * ipp
  /\ get_itemIndexEnd m = Some (Qmin (get_itemIndexStart m + ipp) ti).
Proof.
  intros Ti Ip.
  unfold get_itemIndexEnd, _getItemIndexEnd, get_itemIndexStart,
    _getItemIndexStart.
  rewrite Ti, Ip. cbn [num]. split; [reflexivity|].
  set (iend := (get_page m - 1) * ipp + ipp).
  unfold Qmin, GenericMinMax.gmin.
  destruct (Qlt_bool ti iend) eqn:L.
  - apply Qlt_bool_iff in L. rewrite Qlt_alt in L.
    rewrite (proj1 (Qgt_alt iend ti)); [reflexivity|].
    apply Qlt_alt. exact L.
  - apply Qlt_bool_false_iff in L. rewrite Qle_alt in L.
    destruct (iend ?= ti) eqn:C; try reflexivity. congruence.
Qed.

(** 500 items at 50 per page: page 3 covers 100 to 150, page 10 covers 450
    to 500. *)
Lemma C7_witness :
  let m3 := run [SetPage (int 3)] (construct (Some 500) (Some 50)) in
  let m10 := run [SetPage (int 10)] (construct (Some 500) (Some 50)) in
  (get_itemIndexStart m3 = (3 - 1) * 50
   /\ get_itemIndexEnd m3 = Some (Qmin (get_itemIndexStart m3 + 50) 500))
  /\ (get_itemIndexStart m10 = (10 - 1) * 50
      /\ get_itemIndexEnd m10 = Some (Qmin (get_itemIndexStart m10 + 50) 500)).
Proof.
  intros m3 m10. split.
  - apply (C7_item_index_range m3 500 50); reflexivity.
  - apply (C7_item_index_range m10 500 50); reflexivity.
Defined.

Example item_index_500_50 :
  let m3 := run [SetPage (int 3)] (construct (Some 500) (Some 50)) in
  let m10 := run [SetPage (int 10)] (construct (Some 500) (Some 50)) in
  get_itemIndexStart m3 = 100 /\ get_itemIndexEnd m3 = Some 150
  /\ get_itemIndexStart m10 = 450 /\ get_itemIndexEnd m10 = Some 500.
Proof. repeat split. Qed.

Example item_index_95_10 :
  let m := run [SetPage (int 10)] (construct (Some 95) (Some 10)) in
  get_totalPages m = Some 10 /\ get_page m = 10
  /\ get_itemIndexStart m = 90 /\ get_itemIndexEnd m = Some 95.
Proof. repeat split. Qed.

(** A sizing input that is not positive keeps the guard of
    [_recalcPagnParams] closed. *)
Lemma incomplete_totalItems (q : Q) (m : PaginatorModel) :
  q <= 0 -> complete (with_totalItems q m) = false.
Proof.
  intro Hq. destruct (complete _) eqn:C; [|reflexivity].
  apply complete_iff in C. destruct C as (a & b & A & _ & Ha & _).
  simpl in A. inversion A; subst a. lra.
Qed.

Lemma incomplete_itemsPerPage (q : Q) (m : PaginatorModel) :
  q <= 0 -> complete (with_itemsPerPage q m) = false.
Proof.
  intro Hq. destruct (complete _) eqn:C; [|reflexivity].
  apply complete_iff in C. destruct C as (a & b & _ & B & _ & Hb).
  simpl in B. inversion B; subst b. lra.
Qed.

(** C8, as the code has it.  The validator of both sizing attributes is
    [Y.Lang.isNumber] alone.  A value that is not a finite number is turned
    down silently: [set] returns the model with every field as it was.  A
    zero or negative number is a number: it is stored in its attribute, the
    recalculation is skipped, and the other sizing input, [page],
    [lastPage] and the page count stay as they were. *)
Theorem C8_sizing_validation (m : PaginatorModel) :
  reachable m ->
  (forall v, isNumber v = false ->
             set_totalItems v m = m /\ set_itemsPerPage v m = m)
  /\ (forall q, q <= 0 ->
        let m' := set_totalItems (VNumber (Finite q)) m in
        same (get_totalItems m') (Some q)
        /\ get_itemsPerPage m' = get_itemsPerPage m
        /\ get_page m' = get_page m /\ get_lastPage m' = get_lastPage m
        /\ get_totalPages m' = get_totalPages m)
  /\ (forall q, q <= 0 ->
        let m' := set_itemsPerPage (VNumber (Finite q)) m in
        same (get_itemsPerPage m') (Some q)
        /\ get_totalItems m' = get_totalItems m
        /\ get_page m' = get_page m /\ get_lastPage m' = get_lastPage m
        /\ get_totalPages m' = get_totalPages m).
Proof.
  intro R. pose proof (inv_subscr m (reachable_Inv m R)) as S.
  unfold get_totalItems, get_itemsPerPage, get_page, get_lastPage,
    get_totalPages.
  split; [|split].
  - intros v NV. unfold set_totalItems, set_itemsPerPage.
    rewrite !(setAttrVal_not_number _ v NV). split; reflexivity.
  - intros q Hq. cbv zeta. unfold set_totalItems, _setAttrVal.
    destruct (totalItems m) as [t|] eqn:T;
      [destruct (Qeq_bool q t) eqn:E|];
      try (cbn [_subscr with_totalItems]; rewrite S;
           rewrite recalc_incomplete by (apply incomplete_totalItems, Hq);
           simpl; repeat split; reflexivity).
    rewrite T. apply Qeq_bool_iff in E. simpl. repeat split.
    symmetry. exact E.
  - intros q Hq. cbv zeta. unfold set_itemsPerPage, _setAttrVal.
    destruct (itemsPerPage m) as [t|] eqn:T;
      [destruct (Qeq_bool q t) eqn:E|];
      try (cbn [_subscr with_itemsPerPage]; rewrite S;
           rewrite recalc_incomplete by (apply incomplete_itemsPerPage, Hq);
           simpl; repeat split; reflexivity).
    rewrite T. apply Qeq_bool_iff in E. simpl. repeat split.
    symmetry. exact E.
Qed.

Lemma C8_witness :
  let m := run [SetPage (int 4)] (construct (Some 95) (Some 10)) in
  (set_totalItems (VString NaN) m = m /\ set_itemsPerPage (VString NaN) m = m)
  /\ same (get_itemsPerPage (set_itemsPerPage (int 0) m)) (Some 0)
  /\ get_page (set_itemsPerPage (int 0) m) = get_page m.
Proof.
  intro m.
  assert (R : reachable m) by (apply reachable_run; constructor).
  destruct (C8_sizing_validation m R) as (A & _ & C).
  split; [apply A; reflexivity|].
  assert (Hq : 0 <= 0) by discriminate.
  destruct (C 0 Hq) as (C1 & _ & C3 & _).
  split; [exact C1|exact C3].
Defined.

(** With 500 items at 50 per page, [set('totalItems', -5)] raises nothing
    and stores -5. *)
Lemma C8_counterexample :
  let m := construct (Some 500) (Some 50) in
  let m' := set_totalItems (int (-5)) m in
  get_totalItems m = Some 500
  /\ get_totalItems m' = Some (-5 # 1) /\ m' <> m.
Proof. repeat split. discriminate. Qed.

(** The guard of [_recalcPagnParams] looks at the two sizing inputs only. *)
Lemma complete_ext (m m' : PaginatorModel) :
  totalItems m' = totalItems m -> itemsPerPage m' = itemsPerPage m ->
  complete m' = complete m.
Proof.
  intros A B. unfold complete, get_totalItems, get_itemsPerPage.
  rewrite A, B. reflexivity.
Qed.

Lemma recalc_frame (m : PaginatorModel) :
  totalItems (fst (_recalcPagnParams m)) = totalItems m
  /\ itemsPerPage (fst (_recalcPagnParams m)) = itemsPerPage m.
Proof.
  rewrite recalc_eq. destruct (complete m); cbn [fst]; [|auto].
  destruct (set_page_frame (VNumber (Finite 1))
              (with__npages (pages_of (num (totalItems m))
                                      (num (itemsPerPage m))) m))
    as (A & B & _).
  cbv zeta in A, B. rewrite A, B. auto.
Qed.

Lemma construct_inputs (ti ipp : stored) :
  totalItems (construct ti ipp) = ti /\ itemsPerPage (construct ti ipp) = ipp.
Proof.
  unfold construct, initializer. cbn [with__subscr totalItems itemsPerPage].
  apply (recalc_frame (mkModel ti ipp 1 None None false)).
Qed.

(** An operation that leaves the sizing inputs incomplete leaves the page
    count alone. *)
Lemma step_incomplete_npages (o : op) (m : PaginatorModel) :
  complete (step o m) = false -> _npages (step o m) = _npages m.
Proof.
  destruct o as [v|v|v]; simpl.
  - unfold set_totalItems.
    destruct (_setAttrVal (totalItems m) v) as [q|]; [|reflexivity].
    set (m1 := with_totalItems q m).
    destruct (_subscr m1); [|reflexivity].
    intro C. destruct (recalc_frame m1) as [A B].
    rewrite (complete_ext m1 _ A B) in C.
    rewrite recalc_incomplete by exact C. reflexivity.
  - unfold set_itemsPerPage.
    destruct (_setAttrVal (itemsPerPage m) v) as [q|]; [|reflexivity].
    set (m1 := with_itemsPerPage q m).
    destruct (_subscr m1); [|reflexivity].
    intro C. destruct (recalc_frame m1) as [A B].
    rewrite (complete_ext m1 _ A B) in C.
    rewrite recalc_incomplete by exact C. reflexivity.
  - intros _. apply (set_page_frame v m).
Qed.

Lemma never_complete_reachable (m : PaginatorModel) :
  never_complete m -> reachable m.
Proof. induction 1; constructor; assumption. Qed.

(** C9, as the code has it.  As long as [totalItems] and [itemsPerPage] have
    not both been positive numbers, from construction on,
    [get('totalPages')] returns [null] (the initial value of [_npages]), not
    0; [_changePage] treats it as it would treat 0, so that the page stays at
    1. *)
Theorem C9_totalPages_null_until_complete (m : PaginatorModel) :
  never_complete m ->
  get_totalPages m = None /\ get_page m == 1
  /\ forall v, set_page v m = m.
Proof.
  intro NC.
  assert (T : get_totalPages m = None).
  { unfold get_totalPages.
    induction NC as [ti ipp C|o m NC IH C].
    - destruct (construct_inputs ti ipp) as [A B].
      rewrite (complete_ext (mkModel ti ipp 1 None None false) _ A B) in C.
      unfold construct, initializer.
      rewrite recalc_incomplete by exact C. reflexivity.
    - rewrite step_incomplete_npages by exact C. exact IH. }
  pose proof (reachable_Inv m (never_complete_reachable m NC)) as I.
  split; [exact T|split].
  - apply (inv_first m I). exact T.
  - intro v. apply set_page_prevented; [apply I|].
    apply validp_disabled. left. rewrite T. reflexivity.
Qed.

Lemma C9_witness :
  let m := run [SetTotalItems (int 40); SetItemsPerPage (int 0)]
               (construct None None) in
  get_totalPages m = None /\ get_page m == 1 /\ set_page (int 2) m = m.
Proof.
  intro m.
  assert (NC : never_complete m).
  { unfold m, run, fold_left.
    apply nc_step; [apply nc_step; [apply nc_construct|]|]; reflexivity. }
  destruct (C9_totalPages_null_until_complete m NC) as (T & P & K).
  split; [exact T|split; [exact P|apply K]].
Defined.

(** A model built without sizing inputs answers [null], not 0; and with 500
    items at 50 per page, [set('totalItems', 0)] leaves the page count at
    10. *)
Lemma C9_counterexample :
  let m0 := construct None None in
  let m := set_totalItems (int 0) (construct (Some 500) (Some 50)) in
  (get_totalPages m0 = None /\ get_totalPages m0 <> Some 0)
  /\ (get_totalItems m = Some 0 /\ complete m = false
      /\ get_totalPages m = Some 10).
Proof. repeat split. discriminate. Qed.

(** C10.  The page need not be an integer.  While paging is enabled
    ([totalPages] positive, [itemsPerPage] a non-zero number), any number
    [n], integral or not, with [1 <= n <= totalPages] is accepted as the
    page, and [get('itemIndexStart')] is then [(n - 1) * itemsPerPage]. *)
Theorem C10_fractional_page_accepted (m : PaginatorModel) (tp ipp n : Q) :
  reachable m ->
  get_totalPages m = Some tp -> 0 < tp ->
  get_itemsPerPage m = Some ipp -> ~ ipp == 0 ->
  1 <= n -> n <= tp ->
  let m' := set_page (VNumber (Finite n)) m in
  isNumber (VNumber (Finite n)) = true
  /\ get_page m' == n
  /\ get_itemIndexStart m' == (n - 1) * ipp.
Proof.
  intros R T Htp Ip Hip L1 L2. cbv zeta.
  pose proof (inv_subscr m (reachable_Inv m R)) as S.
  assert (Tr : truthy (get_itemsPerPage m) = true).
  { rewrite Ip. apply truthy_Some. exact Hip. }
  destruct (set_page_in_range m tp n S T Htp Tr L1 L2) as [P _].
  cbv zeta in P.
  destruct (set_page_frame (VNumber (Finite n)) m) as (_ & B & _).
  cbv zeta in B.
  split; [reflexivity|split; [exact P|]].
  unfold get_itemIndexStart, _getItemIndexStart, get_itemsPerPage in *.
  rewrite B, Ip. cbn [num]. rewrite P. reflexivity.
Qed.

(** Page 5/2 of 95 items at 3 per page: the first index is 9/2. *)
Lemma C10_witness :
  let m := construct (Some 95) (Some 3) in
  let m' := set_page (VNumber (Finite (5 # 2))) m in
  isNumber (VNumber (Finite (5 # 2))) = true
  /\ get_page m' == 5 # 2
  /\ get_itemIndexStart m' == ((5 # 2) - 1) * 3.
Proof.
  intros m m'.
  apply (C10_fractional_page_accepted m 32 3 (5 # 2)).
  - constructor.
  - reflexivity.
  - reflexivity.
  - reflexivity.
  - discriminate.
  - discriminate.
  - discriminate.
Defined.

Example fractional_page :
  let m' := set_page (VNumber (Finite (5 # 2))) (construct (Some 95) (Some 3)) in
  get_page m' = 5 # 2 /\ get_itemIndexStart m' = 9 # 2
  /\ Qfloor (get_itemIndexStart m') = 4%Z.
Proof. repeat split. Qed.

(** ** Further properties of the model *)







Section PageCountBounds.

Variables ti ipp : Q.
Hypothesis ti_pos : 0 < ti.
Hypothesis ipp_pos : 0 < ipp.



End PageCountBounds.



(** After [set('totalItems', q)] the attribute holds the number [q],
    whether it was stored by this call or was there before. *)
Lemma set_totalItems_holds (q : Q) (m : PaginatorModel) :
  exists r, totalItems (set_totalItems (VNumber (Finite q)) m) = Some r
            /\ Qeq_bool q r = true.
Proof.
  unfold set_totalItems, _setAttrVal.
  destruct (totalItems m) as [t|] eqn:T; [destruct (Qeq_bool q t) eqn:E|].
  - exists t. auto.
  - exists q. split; [|apply Qeq_bool_refl].
    destruct (_subscr (with_totalItems q m)); [|reflexivity].
    rewrite (proj1 (recalc_frame (with_totalItems q m))). reflexivity.
  - exists q. split; [|apply Qeq_bool_refl].
    destruct (_subscr (with_totalItems q m)); [|reflexivity].
    rewrite (proj1 (recalc_frame (with_totalItems q m))). reflexivity.
Qed.

Lemma set_itemsPerPage_holds (q : Q) (m : PaginatorModel) :
  exists r, itemsPerPage (set_itemsPerPage (VNumber (Finite q)) m) = Some r
            /\ Qeq_bool q r = true.
Proof.
  unfold set_itemsPerPage, _setAttrVal.
  destruct (itemsPerPage m) as [t|] eqn:T; [destruct (Qeq_bool q t) eqn:E|].
  - exists t. auto.
  - exists q. split; [|apply Qeq_bool_refl].
    destruct (_subscr (with_itemsPerPage q m)); [|reflexivity].
    rewrite (proj2 (recalc_frame (with_itemsPerPage q m))). reflexivity.
  - exists q. split; [|apply Qeq_bool_refl].
    destruct (_subscr (with_itemsPerPage q m)); [|reflexivity].
    rewrite (proj2 (recalc_frame (with_itemsPerPage q m))). reflexivity.
Qed.

(** X3.  A sizing call repeated with the value given before is ignored
    altogether, also when the page was moved in between: the model is left
    as it is, and in particular the page is not put back to 1. *)
Theorem sizing_call_repeated_is_ignored (m : PaginatorModel) (v w : value) :
  (let m1 := set_page w (set_totalItems v m) in set_totalItems v m1 = m1)
  /\ (let m1 := set_page w (set_itemsPerPage v m) in
      set_itemsPerPage v m1 = m1).
Proof.
  split; cbv zeta.
  - destruct (isNumber v) eqn:NV.
    + destruct v as [| | |[q| |]|]; try discriminate.
      destruct (set_totalItems_holds q m) as (r & T & E).
      destruct (set_page_frame w (set_totalItems (VNumber (Finite q)) m))
        as (A & _).
      cbv zeta in A. unfold set_totalItems at 1.
      rewrite A, T. unfold _setAttrVal. rewrite E. reflexivity.
    + unfold set_totalItems.
      rewrite !(setAttrVal_not_number _ v NV). reflexivity.
  - destruct (isNumber v) eqn:NV.
    + destruct v as [| | |[q| |]|]; try discriminate.
      destruct (set_itemsPerPage_holds q m) as (r & T & E).
      destruct (set_page_frame w (set_itemsPerPage (VNumber (Finite q)) m))
        as (_ & B & _).
      cbv zeta in B. unfold set_itemsPerPage at 1.
      rewrite B, T. unfold _setAttrVal. rewrite E. reflexivity.
    + unfold set_itemsPerPage.
      rewrite !(setAttrVal_not_number _ v NV). reflexivity.
Qed.

Example repeated_itemsPerPage_keeps_page :
  let m := run [SetPage (int 4)] (construct (Some 95) (Some 10)) in
  get_page (set_itemsPerPage (int 10) m) = 4.
Proof. reflexivity. Qed.

Lemma incomplete_without_totalItems (m : PaginatorModel) :
  totalItems m = None -> complete m = false.
Proof.
  intro T. destruct (complete m) eqn:C; [|reflexivity].
  apply complete_iff in C. destruct C as (a & b & A & _). congruence.
Qed.

Lemma incomplete_without_itemsPerPage (m : PaginatorModel) :
  itemsPerPage m = None -> complete m = false.
Proof.
  intro T. destruct (complete m) eqn:C; [|reflexivity].
  apply complete_iff in C. destruct C as (a & b & _ & B & _). congruence.
Qed.

(** X4.  On a model built without sizing inputs, the two sizing calls can be
    made in either order: the resulting models are equal.  With two numbers
    the result has the sizing inputs, the page and the page count of the
    model built from these numbers. *)
Theorem sizing_order_is_irrelevant :
  (forall a b : value,
      run [SetTotalItems a; SetItemsPerPage b] (construct None None)
      = run [SetItemsPerPage b; SetTotalItems a] (construct None None))
  /\ (forall qa qb : Q,
        let m := run [SetTotalItems (VNumber (Finite qa));
                      SetItemsPerPage (VNumber (Finite qb))]
                     (construct None None) in
        let c := construct (Some qa) (Some qb) in
        get_totalItems m = get_totalItems c
        /\ get_itemsPerPage m = get_itemsPerPage c
        /\ get_page m = get_page c
        /\ get_totalPages m = get_totalPages c).
Proof.
  assert (M0 : construct None None = mkModel None None 1 None None true)
    by reflexivity.
  assert (TI : forall q m, itemsPerPage m = None -> _subscr m = true ->
                 set_totalItems (VNumber (Finite q)) m
                 = if strict_eq q (totalItems m) then m
                   else with_totalItems q m).
  { intros q m Ip S. unfold set_totalItems, _setAttrVal, strict_eq.
    destruct (totalItems m) as [t|]; [destruct (Qeq_bool q t)|];
      try reflexivity;
      cbn [_subscr with_totalItems]; rewrite S;
      rewrite recalc_incomplete;
      try reflexivity; apply incomplete_without_itemsPerPage; exact Ip. }
  assert (IP : forall q m, totalItems m = None -> _subscr m = true ->
                 set_itemsPerPage (VNumber (Finite q)) m
                 = if strict_eq q (itemsPerPage m) then m
                   else with_itemsPerPage q m).
  { intros q m Ti S. unfold set_itemsPerPage, _setAttrVal, strict_eq.
    destruct (itemsPerPage m) as [t|]; [destruct (Qeq_bool q t)|];
      try reflexivity;
      cbn [_subscr with_itemsPerPage]; rewrite S;
      rewrite recalc_incomplete;
      try reflexivity; apply incomplete_without_totalItems; exact Ti. }
  split.
  - intros a b. unfold run, fold_left, step. rewrite M0.
    destruct (isNumber a) eqn:NA; destruct (isNumber b) eqn:NB.
    + destruct a as [| | |[qa| |]|]; try discriminate.
      destruct b as [| | |[qb| |]|]; try discriminate.
      rewrite (TI qa (mkModel None None 1 None None true)) by reflexivity.
      rewrite (IP qb (mkModel None None 1 None None true)) by reflexivity.
      reflexivity.
    + unfold set_itemsPerPage.
      rewrite !(setAttrVal_not_number _ b NB). reflexivity.
    + unfold set_totalItems.
      rewrite !(setAttrVal_not_number _ a NA). reflexivity.
    + unfold set_totalItems, set_itemsPerPage.
      rewrite !(setAttrVal_not_number _ a NA).
      rewrite !(setAttrVal_not_number _ b NB). reflexivity.
  - intros qa qb. cbv zeta. unfold run, fold_left, step. rewrite M0.
    rewrite TI by reflexivity. cbn [strict_eq totalItems].
    unfold set_itemsPerPage, construct, initializer.
    cbn [_setAttrVal itemsPerPage with_totalItems with_itemsPerPage _subscr].
    change (with_itemsPerPage qb
              (with_totalItems qa (mkModel None None 1 None None true)))
      with (mkModel (Some qa) (Some qb) 1 None None true).
    set (m1 := mkModel (Some qa) (Some qb) 1 None None true).
    set (m0 := mkModel (Some qa) (Some qb) 1 None None false).
    unfold get_totalItems, get_itemsPerPage, get_page, get_totalPages.
    cbn [with__subscr totalItems itemsPerPage page _npages].
    rewrite !recalc_eq.
    assert (C : complete m1 = complete m0) by reflexivity.
    rewrite C. destruct (complete m0); cbn [fst]; [|auto].
    set (np := pages_of (num (totalItems m1)) (num (itemsPerPage m1))).
    change (pages_of (num (totalItems m0)) (num (itemsPerPage m0))) with np.
    destruct (set_page_frame (VNumber (Finite 1)) (with__npages np m1))
      as (A1 & B1 & N1 & _).
    destruct (set_page_frame (VNumber (Finite 1)) (with__npages np m0))
      as (A0 & B0 & N0 & _).
    cbv zeta in A1, B1, N1, A0, B0, N0.
    rewrite A1, B1, N1, A0, B0, N0. repeat split.
    assert (P1 : page (set_page (VNumber (Finite 1)) (with__npages np m1)) = 1).
    { destruct (set_page_cases (VNumber (Finite 1)) (with__npages np m1))
        as [P|(n & E & _ & P)]; [reflexivity|exact P|].
      inversion E. congruence. }
    rewrite P1. reflexivity.
Qed.

(** ** Properties of the view *)



Example calcOffset_near_the_end :
  let m := run [SetPage (int 9)] (construct (Some 95) (Some 10)) in
  _calcOffset m 9 2 = (7, Some 10).
Proof. reflexivity. Qed.




Lemma reachable_page_ge_1 (m : PaginatorModel) : reachable m -> 1 <= page m.
Proof.
  intro R. pose proof (reachable_Inv m R) as I.
  destruct (_npages m) as [np|] eqn:N.
  - apply (inv_range m I np N).
  - destruct (inv_first m I N) as [P _]. lra.
Qed.

Lemma truthyQ_pos (q : Q) : 0 < q -> truthyQ q = true.
Proof. intro H. apply (truthy_pos q H). Qed.








Example page_links_25_10 :
  match render true (run [SetPage (int 2)] (construct (Some 25) (Some 10))) with
  | Some (Rendered links) =>
      links = [mkLink 1 false 1 10; mkLink 2 true 11 20; mkLink 3 false 21 25]
  | _ => False
  end.
Proof. reflexivity. Qed.



(** A model with a page count and a non-zero [itemsPerPage] accepts every
    number from 1 to the page count. *)
Lemma reachable_moves (m : PaginatorModel) (tp n : Q) :
  reachable m ->
  get_totalPages m = Some tp -> truthy (get_itemsPerPage m) = true ->
  1 <= n -> n <= tp ->
  moved_to n m (set_page (VNumber (Finite n)) m).
Proof.
  intros R T Ip L1 L2. pose proof (reachable_Inv m R) as I.
  destruct (inv_range m I tp T) as (G & _).
  apply (set_page_in_range m tp n); auto; [apply I|lra].
Qed.

(** X9.  Whatever is typed into the page input, [_inputChangePage] hands
    the model a number it accepts: while paging is enabled the page becomes
    the typed number when it lies within [1 .. totalPages] and 1 in every
    other case (text that is not a number, 0, a number out of range), and
    [lastPage] the page before.  While paging is disabled nothing
    changes. *)
Theorem inputChangePage_never_rejected (m : PaginatorModel) (r : number) :
  reachable m ->
  (truthy (get_totalPages m) = false \/ truthy (get_itemsPerPage m) = false ->
   _inputChangePage r m = m)
  /\ (forall tp,
        get_totalPages m = Some tp -> truthy (get_itemsPerPage m) = true ->
        (forall q, r = Finite q -> 1 <= q -> q <= tp ->
                   moved_to q m (_inputChangePage r m))
        /\ ((forall q, r = Finite q -> q < 1 \/ tp < q) ->
            moved_to 1 m (_inputChangePage r m))).
Proof.
  intro R. pose proof (reachable_Inv m R) as I. split.
  - intro D. unfold _inputChangePage.
    apply set_page_prevented; [apply I|]. apply validp_disabled. exact D.
  - intros tp T Ip. destruct (inv_range m I tp T) as (G & _).
    assert (One : moved_to 1 m (set_page (VNumber (Finite 1)) m))
      by (apply (reachable_moves m tp 1); auto; lra).
    unfold _inputChangePage. rewrite T. cbn [val ToNumber].
    destruct r as [q| |s].
    + unfold truthyQ. destruct (Qeq_bool q 0) eqn:Z; cbn [negb].
      * apply Qeq_bool_iff in Z.
        assert (E : lt (Finite 1) (Finite 1) || gt (Finite 1) (Finite tp)
                    = false).
        { cbn [lt gt]. apply orb_false_iff.
          split; apply Qlt_bool_false_iff; lra. }
        rewrite E. split; [|auto].
        intros q' Q L1 L2. inversion Q; subst q'. lra.
      * cbn [lt gt].
        destruct (Qlt_bool q 1) eqn:A; cbn [orb];
          [|destruct (Qlt_bool tp q) eqn:B];
          try apply Qlt_bool_iff in A; try apply Qlt_bool_false_iff in A;
          try apply Qlt_bool_iff in B; try apply Qlt_bool_false_iff in B.
        -- split; [|auto]. intros q' Q L1 L2. inversion Q; subst q'. lra.
        -- split; [|auto]. intros q' Q L1 L2. inversion Q; subst q'. lra.
        -- split.
           ++ intros q' Q L1 L2. inversion Q; subst q'.
              apply (reachable_moves m tp q); auto.
           ++ intro H. destruct (H q eq_refl); lra.
    + assert (E : lt (Finite 1) (Finite 1) || gt (Finite 1) (Finite tp)
                  = false).
      { cbn [lt gt]. apply orb_false_iff.
        split; apply Qlt_bool_false_iff; lra. }
      rewrite E. split; [discriminate|auto].
    + destruct s; cbn [lt gt orb]; (split; [discriminate|auto]).
Qed.

Lemma inputChangePage_never_rejected_witness :
  let m := run [SetPage (int 4)] (construct (Some 95) (Some 10)) in
  moved_to 7 m (_inputChangePage (Finite 7) m)
  /\ moved_to 1 m (_inputChangePage NaN m).
Proof.
  intro m.
  assert (R : reachable m) by (apply reachable_run; constructor).
  destruct (inputChangePage_never_rejected m (Finite 7) R) as [_ A].
  destruct (inputChangePage_never_rejected m NaN R) as [_ B].
  split.
  - apply (A 10); try reflexivity; discriminate.
  - apply (B 10); try reflexivity. discriminate.
Defined.

Lemma truthyQ_page (m : PaginatorModel) :
  reachable m -> truthyQ (get_page m) = true.
Proof.
  intro R. pose proof (reachable_page_ge_1 m R). apply truthyQ_pos.
  unfold get_page. lra.
Qed.

Lemma selectors_steps (m : PaginatorModel) (tp : Q) :
  reachable m ->
  get_totalPages m = Some tp -> truthy (get_itemsPerPage m) = true ->
  moved_to 1 m (_clickChangePage false (Selector first) m)
  /\ moved_to tp m (_clickChangePage false (Selector last) m)
  /\ (get_page m == tp ->
      moved_to 1 m (_clickChangePage false (Selector next) m))
  /\ (get_page m + 1 <= tp ->
      moved_to (get_page m + 1) m (_clickChangePage false (Selector next) m))
  /\ (get_page m == 1 ->
      moved_to tp m (_clickChangePage false (Selector prev) m))
  /\ (1 <= get_page m - 1 ->
      moved_to (get_page m - 1) m
               (_clickChangePage false (Selector prev) m)).
Proof.
  intros R T Ip. pose proof (reachable_Inv m R) as I.
  destruct (inv_range m I tp T) as (G & P1 & P2).
  pose proof (truthyQ_page m R) as TQ.
  unfold _clickChangePage, pglink_request. rewrite T, TQ.
  cbn [negb val strict_eq]. unfold get_page in *.
  split; [|split; [|split; [|split; [|split]]]].
  - apply (reachable_moves m tp 1); auto; lra.
  - apply (reachable_moves m tp tp); auto; lra.
  - intro E. apply Qeq_bool_iff in E. rewrite E.
    apply (reachable_moves m tp 1); auto; lra.
  - intro L. destruct (Qeq_bool (page m) tp) eqn:E.
    + apply Qeq_bool_iff in E. lra.
    + apply (reachable_moves m tp (page m + 1)); auto; lra.
  - intro E. apply Qeq_bool_iff in E. rewrite E.
    apply (reachable_moves m tp tp); auto; lra.
  - intro L. destruct (Qeq_bool (page m) 1) eqn:E.
    + apply Qeq_bool_iff in E. lra.
    + apply (reachable_moves m tp (page m - 1)); auto; lra.
Qed.






(** A page of 5/2 on three pages: [next] is turned down (7/2 is beyond the
    last page) and [prev] then leads to 3/2. *)
Example next_and_prev_on_a_fraction :
  let m := run [SetPage (VNumber (Finite (5 # 2)))]
               (construct (Some 25) (Some 10)) in
  _clickChangePage false (Selector next) m = m
  /\ get_page (_clickChangePage false (Selector prev)
                 (_clickChangePage false (Selector next) m)) = 3 # 2.
Proof. split; reflexivity. Qed.

Lemma set_itemsPerPage_totalItems (v : value) (m : PaginatorModel) :
  totalItems (set_itemsPerPage v m) = totalItems m.
Proof.
  unfold set_itemsPerPage.
  destruct (_setAttrVal (itemsPerPage m) v) as [q|]; [|reflexivity].
  destruct (_subscr (with_itemsPerPage q m)); [|reflexivity].
  apply (recalc_frame (with_itemsPerPage q m)).
Qed.

(** X12.  Choosing "All" in the rows-per-page control of a model with a
    positive [totalItems] puts every item on one page: [itemsPerPage] is
    [totalItems], [totalPages] is 1, the page is 1 and its index range is
    [0 .. totalItems]. *)
Theorem all_rows_on_one_page (m : PaginatorModel) (ti : Q) :
  reachable m -> get_totalItems m = Some ti -> 0 < ti ->
  let m' := _selectChangeRowOptions OptionAll m in
  same (get_itemsPerPage m') (Some ti)
  /\ (exists np, get_totalPages m' = Some np /\ np == 1)
  /\ get_page m' == 1
  /\ get_itemIndexStart m' == 0
  /\ same (get_itemIndexEnd m') (Some ti).
Proof.
  intros R Ti Hti. cbv zeta. unfold _selectChangeRowOptions.
  rewrite Ti. cbn [val].
  set (m' := set_itemsPerPage (VNumber (Finite ti)) m).
  assert (R' : reachable m')
    by apply (reach_step (SetItemsPerPage (VNumber (Finite ti))) m R).
  pose proof (reachable_Inv m' R') as I.
  destruct (set_itemsPerPage_holds ti m) as (r & Ip & E). fold m' in Ip.
  apply Qeq_bool_iff in E.
  assert (Ti' : totalItems m' = Some ti).
  { unfold m'. rewrite set_itemsPerPage_totalItems. exact Ti. }
  assert (Hr : 0 < r) by lra.
  pose proof (inv_count m' I ti r Ti' Ip Hti Hr) as N.
  assert (One : pages_of ti r == 1).
  { rewrite (pages_of_ceiling ti r Hti Hr).
    assert (Q1 : ti / r == 1) by (rewrite E; field; lra).
    rewrite (Qceiling_comp _ _ Q1). reflexivity. }
  destruct (inv_range m' I _ N) as (_ & P1 & P2).
  assert (P : page m' == 1) by lra.
  assert (S0 : (page m' - 1) * r == 0) by (rewrite P; ring).
  unfold get_itemIndexEnd, _getItemIndexEnd, get_itemIndexStart,
    _getItemIndexStart, get_totalItems, get_itemsPerPage, get_page,
    get_totalPages.
  rewrite Ti', Ip, N. cbn [num same].
  split; [lra|split; [eauto|split; [exact P|split; [exact S0|]]]].
  destruct (Qlt_bool ti ((page m' - 1) * r + r)); simpl; lra.
Qed.

Lemma all_rows_on_one_page_witness :
  let m := run [SetPage (int 7)] (construct (Some 95) (Some 10)) in
  let m' := _selectChangeRowOptions OptionAll m in
  same (get_itemsPerPage m') (Some 95)
  /\ (exists np, get_totalPages m' = Some np /\ np == 1)
  /\ get_page m' == 1
  /\ get_itemIndexStart m' == 0
  /\ same (get_itemIndexEnd m') (Some 95).
Proof.
  intro m. apply (all_rows_on_one_page m 95).
  - apply reachable_run. constructor.
  - reflexivity.
  - reflexivity.
Defined.

(** X13.  A rows-per-page text that reads as 0, as no number or as an
    infinity never reaches the model: [+value || value] hands on the string
    for the first two and the validator turns down all three, so that the
    model is left as it is.  (A direct [set('itemsPerPage', 0)] is
    stored.) *)
Theorem rows_text_without_number_is_ignored (m : PaginatorModel) (r : number) :
  (forall q, r = Finite q -> q == 0) ->
  _selectChangeRowOptions (OptionText r) m = m.
Proof.
  intro H. unfold _selectChangeRowOptions, set_itemsPerPage.
  destruct r as [q| |s].
  - unfold truthyQ. rewrite (proj2 (Qeq_bool_iff q 0) (H q eq_refl)).
    reflexivity.
  - reflexivity.
  - reflexivity.
Qed.

Lemma rows_text_without_number_is_ignored_witness :
  let m := construct (Some 95) (Some 10) in
  _selectChangeRowOptions (OptionText (Finite 0)) m = m
  /\ get_itemsPerPage (set_itemsPerPage (int 0) m) = Some 0.
Proof.
  intro m. split; [|reflexivity].
  apply (rows_text_without_number_is_ignored m (Finite 0)).
  intros q E. inversion E. reflexivity.
Defined.

(** X14.  In a view that is not circular, [_processPageChange] disables
    [first] and [prev] on page 1 (and leaves [next] and [last] enabled, also
    when page 1 is the only page), disables [next] and [last] on a last page
    other than page 1, and enables all four elsewhere, whatever the flags
    were before.  A click on a selector disabled this way leaves the model
    as it is: no step from page 1 to the last page or back. *)
Theorem selectors_stop_at_the_ends (m : PaginatorModel) (vw0 : PaginatorView) :
  circular vw0 = false ->
  let vw := _processPageChange (get_page m) m vw0 in
  (get_page m == 1 ->
   disabled vw first = true /\ disabled vw prev = true
   /\ disabled vw next = false /\ disabled vw last = false
   /\ _clickChangePage (disabled vw first) (Selector first) m = m
   /\ _clickChangePage (disabled vw prev) (Selector prev) m = m)
  /\ (forall tp, get_totalPages m = Some tp ->
        ~ get_page m == 1 -> get_page m == tp ->
        disabled vw first = false /\ disabled vw prev = false
        /\ disabled vw next = true /\ disabled vw last = true
        /\ _clickChangePage (disabled vw next) (Selector next) m = m
        /\ _clickChangePage (disabled vw last) (Selector last) m = m)
  /\ (~ get_page m == 1 ->
      (forall tp, get_totalPages m = Some tp -> ~ get_page m == tp) ->
      forall s, disabled vw s = false).
Proof.
  intro C. cbv zeta. unfold _processPageChange. rewrite C. cbn [negb].
  rewrite !andb_true_r. split; [|split].
  - intro E. apply Qeq_bool_iff in E. rewrite E. repeat split.
  - intros tp T N E.
    destruct (Qeq_bool (get_page m) 1) eqn:E1.
    + apply Qeq_bool_iff in E1. contradiction.
    + rewrite T. cbn [strict_eq].
      apply Qeq_bool_iff in E. rewrite E. repeat split.
  - intros N H s.
    destruct (Qeq_bool (get_page m) 1) eqn:E1.
    + apply Qeq_bool_iff in E1. contradiction.
    + destruct (strict_eq (get_page m) (get_totalPages m)) eqn:E2.
      * exfalso. unfold strict_eq in E2.
        destruct (get_totalPages m) as [tp|] eqn:T; [|discriminate].
        apply Qeq_bool_iff in E2. exact (H tp eq_refl E2).
      * destruct s; reflexivity.
Qed.

Lemma selectors_stop_at_the_ends_witness :
  let m := construct (Some 95) (Some 10) in
  let vw := _processPageChange (get_page m) m (mkView false (fun _ => false)) in
  disabled vw first = true /\ disabled vw prev = true
  /\ disabled vw next = false /\ disabled vw last = false
  /\ _clickChangePage (disabled vw first) (Selector first) m = m
  /\ _clickChangePage (disabled vw prev) (Selector prev) m = m.
Proof.
  intros m vw.
  apply (selectors_stop_at_the_ends m (mkView false (fun _ => false))).
  - reflexivity.
  - reflexivity.
Defined.

(** X15.  In a circular view [_processPageChange] leaves no selector
    disabled, so that, while paging is enabled, [prev] on page 1 leads to
    the last page and [next] on the last page leads to page 1. *)
Theorem circular_selectors_wrap_around
  (m : PaginatorModel) (vw0 : PaginatorView) (tp : Q) :
  circular vw0 = true ->
  reachable m ->
  get_totalPages m = Some tp -> truthy (get_itemsPerPage m) = true ->
  let vw := _processPageChange (get_page m) m vw0 in
  (forall s, disabled vw s = false)
  /\ (get_page m == 1 ->
      moved_to tp m (_clickChangePage (disabled vw prev) (Selector prev) m))
  /\ (get_page m == tp ->
      moved_to 1 m (_clickChangePage (disabled vw next) (Selector next) m)).
Proof.
  intros C R T Ip. cbv zeta.
  assert (D : forall s,
             disabled (_processPageChange (get_page m) m vw0) s = false).
  { intro s. unfold _processPageChange. rewrite C. cbn [negb].
    rewrite !andb_false_r. destruct s; reflexivity. }
  destruct (selectors_steps m tp R T Ip) as (_ & _ & N & _ & P & _).
  split; [exact D|]. rewrite !D. split; assumption.
Qed.

Lemma circular_selectors_wrap_around_witness :
  let m := construct (Some 95) (Some 10) in
  let vw := _processPageChange (get_page m) m (mkView true (fun _ => true)) in
  (forall s, disabled vw s = false)
  /\ moved_to 10 m (_clickChangePage (disabled vw prev) (Selector prev) m).
Proof.
  intros m vw.
  destruct (circular_selectors_wrap_around m (mkView true (fun _ => true)) 10)
    as (D & P & _); try reflexivity; [constructor|].
  split; [exact D|apply P; reflexivity].
Defined.
